(** * PDF strategy operations (main.py): merge, split and the editor context

    A shallow embedding of [main.py].  The script is a thin layer over the
    pypdf library: [PdfReader] turns a path into a sequence of pages,
    [PdfWriter] collects pages and serialises them, and the builtin [open]
    creates the output file.  Those three collaborators are modelled by what
    the script observes of them: a file system mapping paths to contents, a
    reader that fails on a missing or unparsable file, a writer that is the
    list of the pages added so far, and an [open] that either truncates the
    target or raises.  A page is opaque. *)

From Stdlib Require Import ZArith String Ascii.
From stdpp Require Import base gmap strings list.

(** ** Exceptions and the effect monad *)

(** The exceptions the modelled calls raise.  [FileNotFoundError] and
    [PermissionError] come from [open], [PdfReadError] from pypdf on a file
    that is not a PDF document, [AttributeError] from pypdf when it is handed
    something that is neither a path nor a stream. *)
Inductive PyExn : Set :=
  | FileNotFoundError
  | PdfReadError
  | PermissionError
  | AttributeError.

Inductive PyResult (A : Type) : Type :=
  | Returned (a : A)
  | Raised (e : PyExn).
Arguments Returned {A} a.
Arguments Raised {A} e.

(** A Python statement run on a store [S]: it returns or raises, and in both
    cases leaves a store behind (an exception does not undo earlier writes). *)
Definition Eff (S A : Type) : Type := S → PyResult A * S.

Definition ret {S A} (a : A) : Eff S A := λ s, (Returned a, s).

Definition raise {S A} (e : PyExn) : Eff S A := λ s, (Raised e, s).

Definition bind {S A B} (m : Eff S A) (k : A → Eff S B) : Eff S B :=
  λ s, match m s with
       | (Returned a, s') => k a s'
       | (Raised e, s') => (Raised e, s')
       end.

Notation "'let!' x ':=' m 'in' k" := (bind m (λ x, k))
  (at level 10, x name, m at level 100, k at level 200).

(** ** Python values that reach the [pdf_path] parameter

    The annotations of [main.py] are not enforced: [PDFEditor.execute_operation]
    declares [pdf_path: str] and hands it to [MergeStrategy.execute], which
    declares [List[str]].  An argument is therefore a string or a list of
    strings. *)
Inductive PyVal : Set :=
  | PyStr (s : string)
  | PyList (l : list string).

(** [for x in v]: a list yields its elements, a string its characters, each
    as a string of length one (on the byte strings used here, one per byte). *)
Fixpoint str_chars (s : string) : list string :=
  match s with
  | EmptyString => []
  | String c rest => String c EmptyString :: str_chars rest
  end.

Definition py_iter (v : PyVal) : list string :=
  match v with
  | PyStr s => str_chars s
  | PyList l => l
  end.

(** ** Sequence slicing, [seq[start:stop]]

    [reader.pages] is a pypdf sequence whose slices are taken the way Python
    takes them: [slice.indices(len)] normalises both ends, the slice is the
    items at [range(start, stop)]. *)
Definition slice_index (len i : Z) : Z :=
  if (i <? 0)%Z then Z.max (i + len) 0 else Z.min i len.

Definition slice_indices (start stop : option Z) (len : Z) : Z * Z :=
  (from_option (slice_index len) 0%Z start,
   from_option (slice_index len) len stop).

Definition py_range (a b : Z) : list Z := seqZ a (b - a).

Definition getitem_slice {A} (l : list A) (start stop : option Z) : list A :=
  let '(a, b) := slice_indices start stop (Z.of_nat (length l)) in
  omap (λ i, l !! Z.to_nat i) (py_range a b).

Section PDF.
Context {Page : Type}.

(** ** The file system *)

(** What a path holds: a PDF document, that is its pages in order, or
    bytes that pypdf cannot parse (an empty file included). *)
Inductive FileContent : Type :=
  | PdfDoc (pages : list Page)
  | NotPdf.

(** [files] are the existing files; [unwritable] the paths that [open]
    cannot create or truncate (no permission, missing directory). *)
Record World : Type := mkWorld {
  files : gmap string FileContent;
  unwritable : gset string
}.

Definition set_file (path : string) (c : FileContent) (w : World) : World :=
  {| files := <[path := c]> (files w); unwritable := unwritable w |}.

(** ** pypdf and [open] *)

(** [PdfReader(stream)] followed by [reader.pages]. *)
Definition PdfReader (stream : PyVal) : Eff World (list Page) :=
  match stream with
  | PyList _ => raise AttributeError
  | PyStr path =>
      λ w, match files w !! path with
           | None => (Raised FileNotFoundError, w)
           | Some NotPdf => (Raised PdfReadError, w)
           | Some (PdfDoc pages) => (Returned pages, w)
           end
  end.

(** [PdfWriter()] and [writer.add_page(page)]. *)
Definition PdfWriter : Type := list Page.

Definition PdfWriter_new : PdfWriter := [].

Definition add_page (writer : PdfWriter) (page : Page) : PdfWriter :=
  writer ++ [page].

(** [open(output_path, 'wb')]: the file exists and is empty afterwards. *)
Definition open_wb (output_path : string) : Eff World string :=
  λ w, if decide (output_path ∈ unwritable w)
       then (Raised PermissionError, w)
       else (Returned output_path, set_file output_path NotPdf w).

(** [writer.write(out)]. *)
Definition PdfWriter_write (writer : PdfWriter) (out : string)
  : Eff World unit :=
  λ w, (Returned tt, set_file out (PdfDoc writer) w).

(** ** MergeStrategy *)

(** [for page in reader.pages: writer.add_page(page)] *)
Fixpoint add_pages (writer : PdfWriter) (pages : list Page) : PdfWriter :=
  match pages with
  | [] => writer
  | page :: rest => add_pages (add_page writer page) rest
  end.

(** [for path in pdf_paths: reader = PdfReader(path); ...] *)
Fixpoint merge_loop (writer : PdfWriter) (paths : list string)
  : Eff World PdfWriter :=
  match paths with
  | [] => ret writer
  | path :: rest =>
      let! reader := PdfReader (PyStr path) in
      merge_loop (add_pages writer reader) rest
  end.

Definition MergeStrategy_execute (pdf_paths : PyVal) (output_path : string)
  : Eff World unit :=
  let! writer := merge_loop PdfWriter_new (py_iter pdf_paths) in
  let! out := open_wb output_path in
  PdfWriter_write writer out.

(** ** SplitStrategy *)

Definition SplitStrategy_execute (pdf_path : PyVal) (output_path : string)
    (start_page : Z) (end_page : option Z) : Eff World unit :=
  let! reader := PdfReader pdf_path in
  let writer :=
    add_pages PdfWriter_new (getitem_slice reader (Some start_page) end_page) in
  let! out := open_wb output_path in
  PdfWriter_write writer out.

(** ** PDFOperation and PDFEditor *)

(** An operation object is what [execute(pdf_path, output_path)] does on
    it; the abstract base class fixes only that signature. *)
Record PDFOperation : Type := { execute : PyVal → string → Eff World unit }.

Definition MergeStrategy : PDFOperation :=
  {| execute := MergeStrategy_execute |}.

(** Called with two positional arguments, [SplitStrategy.execute] takes
    its defaults [start_page=0] and [end_page=None]. *)
Definition SplitStrategy : PDFOperation :=
  {| execute := λ pdf_path output_path,
       SplitStrategy_execute pdf_path output_path 0 None |}.

Record PDFEditor : Type := { _operation : PDFOperation }.

Definition PDFEditor_init (operation : PDFOperation) : PDFEditor :=
  {| _operation := operation |}.

Definition operation (self : PDFEditor) : PDFOperation := _operation self.

Definition set_operation (self : PDFEditor) (operation : PDFOperation)
  : PDFEditor :=
  {| _operation := operation |}.

Definition execute_operation (self : PDFEditor) (pdf_path : PyVal)
    (output_path : string) : Eff World unit :=
  execute (_operation self) pdf_path output_path.

End PDF.

Arguments FileContent Page : clear implicits.
Arguments World Page : clear implicits.
Arguments PdfWriter Page : clear implicits.
Arguments PDFOperation Page : clear implicits.
Arguments PDFEditor Page : clear implicits.

(** ** Concrete documents used to run the model

    Pages are numbered; [a.pdf] has three pages, [b.pdf] two, [doc.pdf] ten,
    [notes.txt] is not a PDF document and [/proc/out.pdf] cannot be opened
    for writing. *)
Definition a_pdf : list nat := [10; 11; 12]%nat.
Definition b_pdf : list nat := [20; 21]%nat.
Definition doc_pdf : list nat := [0; 1; 2; 3; 4; 5; 6; 7; 8; 9]%nat.

Definition disk : World nat :=
  {| files := <["a.pdf" := PdfDoc a_pdf]>
              (<["b.pdf" := PdfDoc b_pdf]>
              (<["doc.pdf" := PdfDoc doc_pdf]>
              (<["notes.txt" := NotPdf]> ∅)));
     unwritable := {["/proc/out.pdf"]} |}.

(** The file at [path] after running [m] on [w]. *)
Definition file_after {Page A} (m : Eff (World Page) A) (w : World Page)
    (path : string) : option (FileContent Page) :=
  files (snd (m w)) !! path.

(** [path] holds a PDF document whose pages are [pages]. *)
Definition holds_document {Page} (w : World Page) (path : string)
    (pages : list Page) : Prop :=
  files w !! path = Some (PdfDoc pages).

(** [path] is missing or is not a PDF document. *)
Definition unreadable {Page} (w : World Page) (path : string) : Prop :=
  ∀ pages, files w !! path ≠ Some (PdfDoc pages).

Definition writable {Page} (w : World Page) (path : string) : Prop :=
  path ∉ unwritable w.

(** Facts about [disk] are settled by running the definitions. *)
Ltac on_disk :=
  first [ reflexivity
        | discriminate
        | by repeat constructor
        | by (unfold writable; simpl; set_solver)
        | by (simpl; lia) ].

(** A path is none of the listed ones. *)
Ltac not_listed :=
  let Hin := fresh "Hin" in
  intros Hin;
  repeat (apply elem_of_cons in Hin as [Hin|Hin]; [discriminate|]);
  by apply elem_of_nil in Hin.

(** * Properties *)

Section Properties.
Context {Page : Type}.
Implicit Types (w : World Page) (pages : list Page) (path out : string).

(** ** The writer and the file system *)

Lemma add_pages_app (writer : PdfWriter Page) pages :
  add_pages writer pages = writer ++ pages.
Proof.
  revert writer. induction pages as [|p ps IH]; intros writer; simpl.
  - by rewrite app_nil_r.
  - rewrite IH. unfold add_page. by rewrite <- app_assoc.
Qed.

Lemma set_file_twice path (c c' : FileContent Page) w :
  set_file path c' (set_file path c w) = set_file path c' w.
Proof. unfold set_file; simpl. by rewrite insert_insert_eq. Qed.

Lemma set_file_lookup path (c : FileContent Page) w :
  files (set_file path c w) !! path = Some c.
Proof. unfold set_file; simpl. apply lookup_insert_eq. Qed.

Lemma set_file_lookup_ne path path' (c : FileContent Page) w :
  path ≠ path' → files (set_file path c w) !! path' = files w !! path'.
Proof. intros Hne. unfold set_file; simpl. by apply lookup_insert_ne. Qed.

(** Opening a writable path and writing the collected pages leaves exactly
    that document at the path. *)
Lemma open_write (writer : PdfWriter Page) out w :
  writable w out →
  (let! h := open_wb out in PdfWriter_write writer h) w
  = (Returned tt, set_file out (PdfDoc writer) w).
Proof.
  intros Hw. unfold bind, open_wb, PdfWriter_write.
  destruct (decide (out ∈ unwritable w)) as [Hin|_]; [done|].
  by rewrite set_file_twice.
Qed.

(** ** Slices *)

Lemma slice_index_bounds (len i : Z) :
  (0 ≤ len)%Z → (0 ≤ slice_index len i ≤ len)%Z.
Proof. intros Hlen. unfold slice_index. destruct (Z.ltb_spec i 0); lia. Qed.

Lemma range_items {A} (l : list A) (n : nat) (a : Z) :
  (0 ≤ a)%Z → Z.to_nat a + n ≤ length l →
  omap (λ i, l !! Z.to_nat i) (seqZ a (Z.of_nat n))
  = take n (drop (Z.to_nat a) l).
Proof.
  revert a. induction n as [|n IH]; intros a Ha Hlen.
  - by rewrite take_0.
  - rewrite seqZ_cons by lia. simpl.
    destruct (lookup_lt_is_Some_2 l (Z.to_nat a)) as [x Hx]; [lia|].
    rewrite Hx. rewrite (drop_S _ _ _ Hx). simpl. f_equal.
    replace (Z.pred (Z.of_nat (S n))) with (Z.of_nat n) by lia.
    rewrite IH by lia. f_equal. f_equal. lia.
Qed.

(** A slice is the segment between its normalised ends. *)
Lemma getitem_slice_segment {A} (l : list A) (start stop : option Z) :
  getitem_slice l start stop
  = take (Z.to_nat (snd (slice_indices start stop (Z.of_nat (length l)))
                    - fst (slice_indices start stop (Z.of_nat (length l)))))
         (drop (Z.to_nat (fst (slice_indices start stop (Z.of_nat (length l))))) l).
Proof.
  unfold getitem_slice.
  destruct (slice_indices start stop (Z.of_nat (length l))) as [a b] eqn:E.
  simpl.
  assert (0 ≤ a ≤ Z.of_nat (length l))%Z as Ha.
  { unfold slice_indices in E. injection E as <- _.
    destruct start; simpl; [apply slice_index_bounds|]; lia. }
  assert (0 ≤ b ≤ Z.of_nat (length l))%Z as Hb.
  { unfold slice_indices in E. injection E as _ <-.
    destruct stop; simpl; [apply slice_index_bounds|]; lia. }
  unfold py_range.
  destruct (Z.le_gt_cases (b - a) 0) as [Hle|Hgt].
  - rewrite seqZ_nil by lia. replace (Z.to_nat (b - a)) with 0 by lia.
    by rewrite take_0.
  - rewrite <- (Z2Nat.id (b - a)) at 1 by lia. apply range_items; lia.
Qed.


(** ** The merge loop *)

(** When every path holds a document the loop reads them all, appends their
    pages behind those already collected and touches no file. *)
Lemma merge_loop_ok (writer : PdfWriter Page) (paths : list string)
    (docs : list (list Page)) w :
  Forall2 (holds_document w) paths docs →
  merge_loop writer paths w = (Returned (writer ++ concat docs), w).
Proof.
  intros Hdocs. revert writer.
  induction Hdocs as [|p d paths docs Hp _ IH]; intros writer; simpl.
  - by rewrite app_nil_r.
  - unfold bind, PdfReader. unfold holds_document in Hp. rewrite Hp.
    rewrite IH, add_pages_app. by rewrite app_assoc.
Qed.

(** A single unreadable path makes the loop raise, and the loop has written
    nothing by then. *)
Lemma merge_loop_raises (writer : PdfWriter Page) (paths : list string) w :
  (∃ path, path ∈ paths ∧ unreadable w path) →
  ∃ e, merge_loop writer paths w = (Raised e, w).
Proof.
  intros (bad & Hin & Hbad). revert writer.
  induction paths as [|p paths IH]; intros writer.
  - by apply elem_of_nil in Hin.
  - simpl. unfold bind, PdfReader.
    destruct (files w !! p) as [[d|]|] eqn:Hp; [|by eexists..].
    apply elem_of_cons in Hin as [->|Hin].
    + by destruct (Hbad d).
    + by apply IH.
Qed.

Lemma concat_page_count (docs : list (list Page)) :
  length (concat docs) = sum_list (length <$> docs).
Proof.
  induction docs as [|d docs IH]; simpl; [done|].
  by rewrite length_app, IH.
Qed.

(** ** The split *)

(** [seq[0:None]] is the whole sequence. *)
Lemma getitem_slice_whole {A} (l : list A) :
  getitem_slice l (Some 0%Z) None = l.
Proof.
  rewrite getitem_slice_segment. simpl. unfold slice_index. simpl.
  rewrite Z.min_l by lia. rewrite Z.sub_0_r, Nat2Z.id. simpl.
  by rewrite take_ge by done.
Qed.

Lemma split_ok path out pages (start_page : Z) (end_page : option Z) w :
  holds_document w path pages → writable w out →
  SplitStrategy_execute (PyStr path) out start_page end_page w
  = (Returned tt,
     set_file out (PdfDoc (getitem_slice pages (Some start_page) end_page)) w).
Proof.
  intros Hdoc Hout. unfold SplitStrategy_execute, bind at 1, PdfReader.
  unfold holds_document in Hdoc. rewrite Hdoc.
  rewrite add_pages_app. simpl. by apply open_write.
Qed.


(** ** MergeStrategy.execute *)

(** C1. For a non-empty list of paths holding documents with page counts
    p1, ..., pn, the merge returns and leaves at the output path a document
    with p1 + ... + pn pages: the pages of the first input in their order,
    then those of the second, and so on. *)
Theorem merge_concatenates (paths : list string) (docs : list (list Page))
    out w :
  paths ≠ [] →
  Forall2 (holds_document w) paths docs →
  writable w out →
  MergeStrategy_execute (PyList paths) out w
  = (Returned tt, set_file out (PdfDoc (concat docs)) w)
  ∧ file_after (MergeStrategy_execute (PyList paths) out) w out
    = Some (PdfDoc (concat docs))
  ∧ length (concat docs) = sum_list (length <$> docs).
Proof.
  intros _ Hdocs Hout.
  assert (MergeStrategy_execute (PyList paths) out w
          = (Returned tt, set_file out (PdfDoc (concat docs)) w)) as Hrun.
  { unfold MergeStrategy_execute, bind at 1. simpl.
    rewrite (merge_loop_ok _ _ docs) by done. simpl. by apply open_write. }
  split; [done|]. split; [|apply concat_page_count].
  unfold file_after. rewrite Hrun. simpl. apply set_file_lookup.
Qed.

(** C7. If one of the input paths is missing or is not a PDF document, the
    merge raises to its caller and the file system is as it was before the
    call: nothing has been written at the output path. *)
Theorem merge_unreadable_aborts (paths : list string) out w :
  (∃ path, path ∈ paths ∧ unreadable w path) →
  ∃ e, MergeStrategy_execute (PyList paths) out w = (Raised e, w).
Proof.
  intros Hbad. unfold MergeStrategy_execute, bind at 1. simpl.
  destruct (merge_loop_raises PdfWriter_new paths w Hbad) as [e ->].
  by exists e.
Qed.

(** C8. On the empty list of paths the merge raises nothing of its own: when
    the output path can be opened it returns and leaves a document of zero
    pages there. *)
Theorem merge_empty_list out w :
  writable w out →
  MergeStrategy_execute (PyList []) out w
  = (Returned tt, set_file out (PdfDoc []) w)
  ∧ file_after (MergeStrategy_execute (PyList []) out) w out
    = Some (PdfDoc []).
Proof.
  intros Hout.
  assert (MergeStrategy_execute (PyList []) out w
          = (Returned tt, set_file out (PdfDoc []) w)) as Hrun.
  { unfold MergeStrategy_execute, bind at 1. simpl. by apply open_write. }
  split; [done|].
  unfold file_after. rewrite Hrun. simpl. apply set_file_lookup.
Qed.

(** ** SplitStrategy.execute *)

(** C2. On a document of N pages and indices 0 ≤ a ≤ b ≤ N the split writes
    b - a pages, the input pages of index a, a+1, ..., b-1 in that order. *)
Theorem split_range path out pages (a b : Z) w :
  holds_document w path pages → writable w out →
  (0 ≤ a ≤ b)%Z → (b ≤ Z.of_nat (length pages))%Z →
  ∃ output,
    SplitStrategy_execute (PyStr path) out a (Some b) w
    = (Returned tt, set_file out (PdfDoc output) w)
    ∧ Z.of_nat (length output) = (b - a)%Z
    ∧ ∀ i : nat, (Z.of_nat i < b - a)%Z →
        output !! i = pages !! (Z.to_nat a + i)
        ∧ is_Some (output !! i).
Proof.
  intros Hdoc Hout Hab Hb. eexists. split; [by apply split_ok|].
  rewrite getitem_slice_segment. simpl.
  unfold slice_index.
  destruct (Z.ltb_spec a 0) as [?|_]; [lia|].
  destruct (Z.ltb_spec b 0) as [?|_]; [lia|].
  rewrite !Z.min_l by lia.
  split.
  - rewrite length_take, length_drop. lia.
  - intros i Hi. rewrite lookup_take_lt by lia. rewrite lookup_drop.
    split; [done|]. apply lookup_lt_is_Some_2. lia.
Qed.

(** C4. With non-negative bounds the split never raises on a readable
    document: the output is empty when start_page ≥ end_page or start_page
    is at or past the page count N, and when end_page is past N the output
    is the pages of index start_page up to N - 1. *)
Theorem split_clamps path out pages (start_page end_page : Z) w :
  holds_document w path pages → writable w out →
  (0 ≤ start_page)%Z → (0 ≤ end_page)%Z →
  ∃ output,
    SplitStrategy_execute (PyStr path) out start_page (Some end_page) w
    = (Returned tt, set_file out (PdfDoc output) w)
    ∧ ((end_page ≤ start_page)%Z ∨ (Z.of_nat (length pages) ≤ start_page)%Z →
       output = [])
    ∧ ((Z.of_nat (length pages) < end_page)%Z →
       output = drop (Z.to_nat start_page) pages).
Proof.
  intros Hdoc Hout Hs He. eexists. split; [by apply split_ok|].
  rewrite getitem_slice_segment. simpl.
  unfold slice_index.
  destruct (Z.ltb_spec start_page 0) as [?|_]; [lia|].
  destruct (Z.ltb_spec end_page 0) as [?|_]; [lia|].
  split.
  - intros Hempty.
    replace (Z.to_nat _) with 0 by lia. by rewrite take_0.
  - intros Hpast. rewrite (Z.min_r end_page) by lia.
    rewrite take_ge by (rewrite length_drop; lia).
    destruct (Z.le_gt_cases start_page (Z.of_nat (length pages))).
    + by rewrite Z.min_l by lia.
    + rewrite Z.min_r by lia. by rewrite !drop_ge by lia.
Qed.

(** C6. With start_page = 0 and end_page = None the split writes all N
    pages of the input in their order. *)
Theorem split_defaults_copy path out pages w :
  holds_document w path pages → writable w out →
  SplitStrategy_execute (PyStr path) out 0 None w
  = (Returned tt, set_file out (PdfDoc pages) w).
Proof.
  intros Hdoc Hout. rewrite (split_ok _ _ pages) by done.
  by rewrite getitem_slice_whole.
Qed.


(** C10. On a document of N ≥ 1 pages a negative start_page is neither
    rejected nor taken as 0: it counts from the end, so the output starts at
    index N + start_page (at 0 when that is still negative).  With
    end_page = None and -N < start_page the output is the last -start_page
    pages, which is not the whole document; start_page = -1 gives the last
    page alone. *)
Theorem split_negative_start path out pages (start_page : Z) w :
  holds_document w path pages → writable w out →
  1 ≤ length pages → (start_page < 0)%Z →
  ∃ output,
    SplitStrategy_execute (PyStr path) out start_page None w
    = (Returned tt, set_file out (PdfDoc output) w)
    ∧ output = drop (Z.to_nat (Z.of_nat (length pages) + start_page)) pages
    ∧ ((- Z.of_nat (length pages) < start_page)%Z →
       Z.of_nat (length output) = (- start_page)%Z ∧ output ≠ pages)
    ∧ (start_page = (-1)%Z →
       ∃ page, last pages = Some page ∧ output = [page]).
Proof.
  intros Hdoc Hout Hlen Hneg. eexists. split; [by apply split_ok|].
  rewrite getitem_slice_segment. simpl.
  unfold slice_index.
  destruct (Z.ltb_spec start_page 0) as [_|?]; [|lia].
  set (N := Z.of_nat (length pages)).
  assert (take (Z.to_nat (N - (start_page + N) `max` 0))
               (drop (Z.to_nat ((start_page + N) `max` 0)) pages)
          = drop (Z.to_nat (N + start_page)) pages) as ->.
  { rewrite take_ge by (rewrite length_drop; lia). f_equal. lia. }
  split; [done|]. split.
  - intros Hin.
    assert (Z.of_nat (length (drop (Z.to_nat (N + start_page)) pages))
            = (- start_page)%Z) as Hcount by (rewrite length_drop; lia).
    split; [done|]. intros Heq. rewrite Heq in Hcount. lia.
  - intros ->. destruct (lookup_lt_is_Some_2 pages (pred (length pages)))
      as [page Hpage]; [lia|].
    exists page. split; [by rewrite last_lookup|].
    replace (Z.to_nat (N + -1)) with (pred (length pages)) by lia.
    rewrite (drop_S _ _ _ Hpage). by rewrite drop_ge by lia.
Qed.

(** ** PDFEditor *)

(** C3. Whatever operation the editor holds and whatever the two arguments
    are, execute_operation is the held operation's execute on those same
    arguments: same result, same effect on the file system. *)
Theorem execute_operation_forwards (self : PDFEditor Page)
    (pdf_path : PyVal) (output_path : string) w :
  execute_operation self pdf_path output_path w
  = execute (operation self) pdf_path output_path w.
Proof. reflexivity. Qed.

(** C5. After the setter has stored [new] in an editor, the property reads
    [new] and execute_operation runs [new]'s execute; the operation held
    before plays no part, two editors that differ only in it behave alike. *)
Theorem set_operation_dispatches (self self' : PDFEditor Page)
    (new : PDFOperation Page) (pdf_path : PyVal) (output_path : string) w :
  operation (set_operation self new) = new
  ∧ execute_operation (set_operation self new) pdf_path output_path w
    = execute new pdf_path output_path w
  ∧ execute_operation (set_operation self new) pdf_path output_path w
    = execute_operation (set_operation self' new) pdf_path output_path w.
Proof. by repeat split. Qed.

(** C9. An editor holding a SplitStrategy passes execute only the two
    paths, so the split runs with start_page = 0 and end_page = None, and on
    a readable document it writes a copy of all its pages. *)
Theorem editor_split_full_copy (self : PDFEditor Page) path out pages w :
  operation self = SplitStrategy →
  holds_document w path pages → writable w out →
  (∀ (pdf_path : PyVal) (output_path : string) w',
     execute_operation self pdf_path output_path w'
     = SplitStrategy_execute pdf_path output_path 0 None w')
  ∧ execute_operation self (PyStr path) out w
    = (Returned tt, set_file out (PdfDoc pages) w).
Proof.
  intros Hop Hdoc Hout.
  assert (∀ (pdf_path : PyVal) (output_path : string) w',
     execute_operation self pdf_path output_path w'
     = SplitStrategy_execute pdf_path output_path 0 None w') as Hfwd.
  { intros. unfold execute_operation. unfold operation in Hop. by rewrite Hop. }
  split; [done|]. rewrite Hfwd, (split_ok _ _ pages) by done.
  by rewrite getitem_slice_whole.
Qed.

(** * Further properties of the operations *)

(** ** Shared facts *)

Lemma merge_ok (paths : list string) (docs : list (list Page)) out w :
  Forall2 (holds_document w) paths docs → writable w out →
  MergeStrategy_execute (PyList paths) out w
  = (Returned tt, set_file out (PdfDoc (concat docs)) w).
Proof.
  intros Hdocs Hout. unfold MergeStrategy_execute, bind at 1. simpl.
  rewrite (merge_loop_ok _ _ docs) by done. simpl. by apply open_write.
Qed.

(** The loop only reads. *)
Lemma merge_loop_reads_only (writer : PdfWriter Page) (paths : list string) w :
  snd (merge_loop writer paths w) = w.
Proof.
  revert writer. induction paths as [|p paths IH]; intros writer; [done|].
  simpl. unfold bind, PdfReader.
  destruct (files w !! p) as [[d|]|]; [apply IH|done..].
Qed.

(** If the loop returns, every path held a document. *)
Lemma merge_loop_returned (writer writer' : PdfWriter Page)
    (paths : list string) w w' :
  merge_loop writer paths w = (Returned writer', w') →
  ∃ docs, Forall2 (holds_document w) paths docs.
Proof.
  revert writer. induction paths as [|p paths IH]; intros writer Hrun.
  - exists []. constructor.
  - simpl in Hrun. unfold bind, PdfReader in Hrun.
    destruct (files w !! p) as [[d|]|] eqn:Hp; [|done..].
    destruct (IH _ Hrun) as [docs Hdocs].
    exists (d :: docs). by constructor.
Qed.

Lemma readable_documents (paths : list string) w :
  (∀ path, path ∈ paths → ∃ pages, holds_document w path pages) →
  ∃ docs, Forall2 (holds_document w) paths docs.
Proof.
  induction paths as [|p paths IH]; intros Hall.
  - exists []. constructor.
  - destruct (Hall p) as [d Hd]; [by left|].
    destruct IH as [docs Hdocs]; [intros q Hq; apply Hall; by right|].
    exists (d :: docs). by constructor.
Qed.

Lemma holds_document_set_file path out pages (c : FileContent Page) w :
  path ≠ out →
  holds_document (set_file out c w) path pages ↔ holds_document w path pages.
Proof.
  intros Hne. unfold holds_document. by rewrite set_file_lookup_ne.
Qed.

Lemma documents_set_file (paths : list string) (docs : list (list Page))
    out (c : FileContent Page) w :
  out ∉ paths → Forall2 (holds_document w) paths docs →
  Forall2 (holds_document (set_file out c w)) paths docs.
Proof.
  intros Hout Hdocs. induction Hdocs as [|p d paths docs Hp _ IH].
  - constructor.
  - apply not_elem_of_cons in Hout as [Hne Hout]. constructor.
    + apply holds_document_set_file; [congruence|done].
    + by apply IH.
Qed.

(** [seq[:k] + seq[k:]] is [seq], for every integer [k]. *)
Lemma getitem_slice_cut {A} (l : list A) (k : Z) :
  getitem_slice l (Some 0%Z) (Some k) ++ getitem_slice l (Some k) None = l.
Proof.
  rewrite !getitem_slice_segment. simpl.
  pose proof (slice_index_bounds (Z.of_nat (length l)) k ltac:(lia)) as Hk.
  set (j := slice_index (Z.of_nat (length l)) k) in *.
  assert (slice_index (Z.of_nat (length l)) 0 = 0%Z) as ->.
  { unfold slice_index. simpl. lia. }
  simpl. rewrite Z.sub_0_r.
  rewrite (take_ge (drop (Z.to_nat j) l)) by (rewrite length_drop; lia).
  apply take_drop.
Qed.

(** An operation raises and leaves the world it found, or returns and
    leaves that world with a document at the output path. *)
Lemma merge_world (pdf_paths : PyVal) out w :
  (∃ e, MergeStrategy_execute pdf_paths out w = (Raised e, w))
  ∨ ∃ pages, MergeStrategy_execute pdf_paths out w
             = (Returned tt, set_file out (PdfDoc pages) w).
Proof.
  unfold MergeStrategy_execute, bind.
  pose proof (merge_loop_reads_only PdfWriter_new (py_iter pdf_paths) w) as Hw.
  destruct (merge_loop PdfWriter_new (py_iter pdf_paths) w) as [[wr|e] w1];
    simpl in Hw; subst w1; [|left; by eexists].
  unfold open_wb, PdfWriter_write.
  destruct (decide (out ∈ unwritable w)); [left; by eexists|].
  right. exists wr. by rewrite set_file_twice.
Qed.

Lemma split_world (pdf_path : PyVal) out (start_page : Z)
    (end_page : option Z) w :
  (∃ e, SplitStrategy_execute pdf_path out start_page end_page w
        = (Raised e, w))
  ∨ ∃ pages, SplitStrategy_execute pdf_path out start_page end_page w
             = (Returned tt, set_file out (PdfDoc pages) w).
Proof.
  unfold SplitStrategy_execute, bind.
  assert (∀ r w1, PdfReader (Page:=Page) pdf_path w = (r, w1) → w1 = w) as Hrd.
  { intros r w1. unfold PdfReader, raise. destruct pdf_path as [p|l].
    - destruct (files w !! p) as [[d|]|]; congruence.
    - congruence. }
  destruct (PdfReader pdf_path w) as [[d|e] w1] eqn:Hread;
    rewrite (Hrd _ _ eq_refl); [|left; by eexists].
  unfold open_wb, PdfWriter_write.
  destruct (decide (out ∈ unwritable w)); [left; by eexists|].
  right. eexists. by rewrite set_file_twice.
Qed.

(** ** What fails, and with what *)

(** X1. A split whose input is missing or is not a PDF document raises, and
    the file system is as before: the output path has not been opened. *)
Theorem split_unreadable_aborts path out (start_page : Z)
    (end_page : option Z) w :
  unreadable w path →
  ∃ e, SplitStrategy_execute (PyStr path) out start_page end_page w
       = (Raised e, w).
Proof.
  intros Hbad. unfold SplitStrategy_execute, bind at 1, PdfReader.
  destruct (files w !! path) as [[d|]|] eqn:Hp; [|by eexists..].
  by destruct (Hbad d).
Qed.

(** X2. When every input is readable but the output path cannot be opened,
    the merge raises the error of [open] and changes no file. *)
Theorem merge_unwritable_raises (paths : list string)
    (docs : list (list Page)) out w :
  Forall2 (holds_document w) paths docs → ¬ writable w out →
  ∃ e, open_wb out w = (Raised e, w)
       ∧ MergeStrategy_execute (PyList paths) out w = (Raised e, w).
Proof.
  intros Hdocs Hout. unfold MergeStrategy_execute, bind at 1. simpl.
  rewrite (merge_loop_ok _ _ docs) by done.
  unfold bind, open_wb. unfold writable in Hout.
  destruct (decide (out ∈ unwritable w)); [by eexists|]. by destruct Hout.
Qed.

(** X3. The same for the split: a readable input and an output path that
    cannot be opened give the error of [open] and no change. *)
Theorem split_unwritable_raises path out pages (start_page : Z)
    (end_page : option Z) w :
  holds_document w path pages → ¬ writable w out →
  ∃ e, open_wb out w = (Raised e, w)
       ∧ SplitStrategy_execute (PyStr path) out start_page end_page w
         = (Raised e, w).
Proof.
  intros Hdoc Hout. unfold SplitStrategy_execute, bind at 1, PdfReader.
  unfold holds_document in Hdoc. rewrite Hdoc.
  unfold bind, open_wb. unfold writable in Hout.
  destruct (decide (out ∈ unwritable w)); [by eexists|]. by destruct Hout.
Qed.

(** X4. The merge reports its first failing input: after a run of readable
    paths, the exception of the merge is the one that reading the first
    unreadable path raises, whatever comes later in the list and whether or
    not the output path could be opened; no file has changed. *)
Theorem merge_first_error (good rest : list string) (bad : string)
    (docs : list (list Page)) out w :
  Forall2 (holds_document w) good docs →
  unreadable w bad →
  ∃ e, PdfReader (Page:=Page) (PyStr bad) w = (Raised e, w)
       ∧ MergeStrategy_execute (PyList (good ++ bad :: rest)) out w
         = (Raised e, w).
Proof.
  intros Hgood Hbad.
  assert (∃ e, PdfReader (Page:=Page) (PyStr bad) w = (Raised e, w))
    as [e He].
  { unfold PdfReader. destruct (files w !! bad) as [[d|]|] eqn:Hp;
      [by destruct (Hbad d)|by eexists..]. }
  exists e. split; [done|].
  unfold MergeStrategy_execute, bind at 1. simpl.
  assert (∀ writer : PdfWriter Page,
    merge_loop writer (good ++ bad :: rest) w = (Raised e, w)) as ->; [|done].
  induction Hgood as [|p d good docs Hp _ IH]; intros writer; simpl.
  - unfold bind, PdfReader. unfold PdfReader in He. by rewrite He.
  - unfold bind at 1, PdfReader. unfold holds_document in Hp. rewrite Hp.
    apply IH.
Qed.

(** X5. The merge returns exactly when every input path holds a document
    and the output path can be opened. *)
Theorem merge_returns_iff (paths : list string) out w :
  (∃ w', MergeStrategy_execute (PyList paths) out w = (Returned tt, w'))
  ↔ (∀ path, path ∈ paths → ∃ pages, holds_document w path pages)
    ∧ writable w out.
Proof.
  split.
  - intros [w' Hrun]. unfold MergeStrategy_execute, bind at 1 in Hrun.
    simpl in Hrun.
    destruct (merge_loop PdfWriter_new paths w) as [[writer|e] w1] eqn:Hloop;
      [|done].
    pose proof (merge_loop_reads_only PdfWriter_new paths w) as Hw1.
    rewrite Hloop in Hw1. simpl in Hw1. subst w1.
    destruct (merge_loop_returned _ _ _ _ _ Hloop) as [docs Hdocs].
    split.
    + intros path Hin.
      apply list_elem_of_lookup in Hin as [i Hi].
      destruct (Forall2_lookup_l _ _ _ _ _ Hdocs Hi) as (d & _ & Hd).
      by exists d.
    + unfold bind, open_wb in Hrun. unfold writable.
      by destruct (decide (out ∈ unwritable w)).
  - intros [Hall Hout]. destruct (readable_documents _ _ Hall) as [docs Hdocs].
    eexists. by apply (merge_ok _ docs).
Qed.

(** ** What is left alone *)

(** X6. Whatever its arguments and whether it returns or raises, the merge
    changes no file other than the one at the output path, and no path
    becomes writable or unwritable. *)
Theorem merge_touches_only_output (pdf_paths : PyVal) out path w :
  path ≠ out →
  file_after (MergeStrategy_execute pdf_paths out) w path = files w !! path
  ∧ unwritable (snd (MergeStrategy_execute pdf_paths out w)) = unwritable w.
Proof.
  intros Hne. unfold file_after.
  destruct (merge_world pdf_paths out w) as [[e ->]|[c ->]]; [done|].
  split; [|done]. by apply set_file_lookup_ne.
Qed.

(** X7. The split likewise changes no file other than the one at the
    output path, for every argument and on every outcome. *)
Theorem split_touches_only_output (pdf_path : PyVal) out path
    (start_page : Z) (end_page : option Z) w :
  path ≠ out →
  file_after (SplitStrategy_execute pdf_path out start_page end_page) w path
  = files w !! path
  ∧ unwritable (snd (SplitStrategy_execute pdf_path out start_page end_page w))
    = unwritable w.
Proof.
  intros Hne. unfold file_after.
  destruct (split_world pdf_path out start_page end_page w)
    as [[e ->]|[c ->]]; [done|].
  split; [|done]. by apply set_file_lookup_ne.
Qed.

(** X8. The split returns exactly when its input path holds a document and
    the output path can be opened, whatever the page bounds are. *)
Theorem split_returns_iff path out (start_page : Z) (end_page : option Z) w :
  (∃ w', SplitStrategy_execute (PyStr path) out start_page end_page w
         = (Returned tt, w'))
  ↔ (∃ pages, holds_document w path pages) ∧ writable w out.
Proof.
  split.
  - intros [w' Hrun]. unfold SplitStrategy_execute, bind, PdfReader in Hrun.
    unfold holds_document, writable.
    destruct (files w !! path) as [[d|]|]; [|done..].
    unfold open_wb in Hrun.
    destruct (decide (out ∈ unwritable w)); [done|]. split; [by exists d|done].
  - intros [[pages Hdoc] Hout]. eexists. by apply split_ok.
Qed.

(** ** An existing output is overwritten *)

(** X9. Whatever the output path held before, after a successful merge it
    holds the merged document and nothing of the old content (the output
    path not being one of the inputs). *)
Theorem merge_overwrites_output (paths : list string)
    (docs : list (list Page)) out (old : FileContent Page) w :
  Forall2 (holds_document w) paths docs → writable w out → out ∉ paths →
  MergeStrategy_execute (PyList paths) out (set_file out old w)
  = (Returned tt, set_file out (PdfDoc (concat docs)) w).
Proof.
  intros Hdocs Hout Hnot.
  rewrite (merge_ok _ docs); [by rewrite set_file_twice| |done].
  by apply documents_set_file.
Qed.

(** X10. The split overwrites in the same way: the old content of the output
    path does not show in the result (the output path not being the input). *)
Theorem split_overwrites_output path out pages (start_page : Z)
    (end_page : option Z) (old : FileContent Page) w :
  holds_document w path pages → writable w out → path ≠ out →
  SplitStrategy_execute (PyStr path) out start_page end_page
    (set_file out old w)
  = (Returned tt,
     set_file out (PdfDoc (getitem_slice pages (Some start_page) end_page)) w).
Proof.
  intros Hdoc Hout Hne.
  rewrite (split_ok _ _ pages); [by rewrite set_file_twice| |done].
  by apply holds_document_set_file.
Qed.

(** ** Page ranges *)

(** X11. For every start_page and end_page, negative or past the end
    included, the pages a split writes are a run of consecutive pages of the
    input: the input is some pages, then the output, then some pages.  No
    page is invented, repeated or moved. *)
Theorem split_is_segment path out pages (start_page : Z)
    (end_page : option Z) w :
  holds_document w path pages → writable w out →
  ∃ before output after,
    SplitStrategy_execute (PyStr path) out start_page end_page w
    = (Returned tt, set_file out (PdfDoc output) w)
    ∧ pages = before ++ output ++ after.
Proof.
  intros Hdoc Hout.
  pose proof (getitem_slice_segment pages (Some start_page) end_page) as Hseg.
  set (a := Z.to_nat _) in Hseg at 2. set (n := Z.to_nat _) in Hseg.
  exists (take a pages), (getitem_slice pages (Some start_page) end_page),
         (drop n (drop a pages)).
  split; [by apply split_ok|].
  rewrite Hseg. by rewrite !take_drop.
Qed.

(** X12. A negative end_page counts from the end as well: with start_page
    = 0 and end_page = e < 0 the split writes the first N + e pages of an
    N-page document (none when N + e ≤ 0), so e = -1 drops the last page. *)
Theorem split_negative_end path out pages (e : Z) w :
  holds_document w path pages → writable w out → (e < 0)%Z →
  SplitStrategy_execute (PyStr path) out 0 (Some e) w
  = (Returned tt,
     set_file out
       (PdfDoc (take (Z.to_nat (Z.of_nat (length pages) + e)) pages)) w).
Proof.
  intros Hdoc Hout He. rewrite (split_ok _ _ pages) by done.
  rewrite getitem_slice_segment. simpl. unfold slice_index. simpl.
  destruct (Z.ltb_spec e 0) as [_|?]; [|lia].
  rewrite Z.min_l by lia. simpl.
  replace (Z.to_nat ((e + Z.of_nat (length pages)) `max` 0 - 0))
    with (Z.to_nat (Z.of_nat (length pages) + e)) by lia.
  done.
Qed.

(** ** How the operations compose *)

Lemma getitem_slice_lookup {A} (l : list A) (a b : Z) (i : nat) :
  (0 ≤ a)%Z → (0 ≤ b)%Z →
  getitem_slice l (Some a) (Some b) !! i
  = if decide (a + Z.of_nat i < b)%Z then l !! (Z.to_nat a + i) else None.
Proof.
  intros Ha Hb. rewrite getitem_slice_segment. simpl. unfold slice_index.
  destruct (Z.ltb_spec a 0) as [?|_]; [lia|].
  destruct (Z.ltb_spec b 0) as [?|_]; [lia|].
  destruct (decide (a + Z.of_nat i < b)%Z) as [Hin|Hout].
  - destruct (decide (Z.to_nat a + i < length l)) as [Hlt|Hge].
    + rewrite lookup_take_lt by lia. rewrite lookup_drop. f_equal. lia.
    + rewrite (lookup_ge_None_2 l (Z.to_nat a + i)) by lia.
      apply lookup_ge_None_2. rewrite length_take, length_drop. lia.
  - apply lookup_ge_None_2. rewrite length_take, length_drop. lia.
Qed.

(** [seq[c:d][a:b]] is [seq[c+a : min(c+b, d)]] for non-negative bounds. *)
Lemma getitem_slice_twice {A} (l : list A) (a b c d : Z) :
  (0 ≤ a)%Z → (0 ≤ b)%Z → (0 ≤ c)%Z → (0 ≤ d)%Z →
  getitem_slice (getitem_slice l (Some c) (Some d)) (Some a) (Some b)
  = getitem_slice l (Some (c + a)%Z) (Some (Z.min (c + b) d)).
Proof.
  intros Ha Hb Hc Hd. apply list_eq. intros i.
  rewrite !getitem_slice_lookup by lia.
  destruct (decide (a + Z.of_nat i < b)%Z) as [H1|H1].
  - destruct (decide (c + Z.of_nat (Z.to_nat a + i) < d)%Z) as [H2|H2].
    + rewrite decide_True by lia. f_equal. lia.
    + by rewrite decide_False by lia.
  - by rewrite decide_False by lia.
Qed.

(** X13. Merging the one-element list [[path]] and splitting [path] with the
    default bounds are the same operation: the same exception on the same
    failures, the same copy at the output path otherwise. *)
Theorem merge_single_is_default_split path out w :
  execute MergeStrategy (PyList [path]) out w
  = execute SplitStrategy (PyStr path) out w.
Proof.
  simpl. unfold MergeStrategy_execute, SplitStrategy_execute. simpl.
  unfold bind at 2. unfold bind at 1. unfold bind at 2. unfold PdfReader.
  destruct (files w !! path) as [[pages|]|]; [|done..].
  unfold ret. by rewrite getitem_slice_whole.
Qed.

(** X14. Cutting a document at any index k into a head ([end_page = k]) and
    a tail ([start_page = k]) and merging the two parts gives the document
    back, page for page. *)
Theorem split_merge_round_trip path head tail out pages (k : Z) w :
  holds_document w path pages →
  writable w head → writable w tail → writable w out →
  head ≠ path → head ≠ tail →
  ∃ w',
    (let! _ := SplitStrategy_execute (PyStr path) head 0 (Some k) in
     let! _ := SplitStrategy_execute (PyStr path) tail k None in
     MergeStrategy_execute (PyList [head; tail]) out) w
    = (Returned tt, w')
    ∧ holds_document w' out pages.
Proof.
  intros Hdoc Hhead Htail Hout Hne1 Hne2.
  eexists. unfold bind at 1.
  rewrite (split_ok _ _ pages) by done.
  unfold bind at 1.
  rewrite (split_ok _ _ pages);
    [|by apply holds_document_set_file|done].
  rewrite (merge_ok _ [getitem_slice pages (Some 0%Z) (Some k);
                       getitem_slice pages (Some k) None]); [| |done].
  - split; [done|]. unfold holds_document. rewrite set_file_lookup.
    simpl. rewrite app_nil_r. by rewrite getitem_slice_cut.
  - constructor; [|constructor; [|constructor]].
    + apply holds_document_set_file; [done|]. apply set_file_lookup.
    + apply set_file_lookup.
Qed.

(** X15. Merging in two steps is merging in one: merge a first list into an
    intermediate file, then merge that file followed by a second list, and
    the output holds what merging the two lists back to back gives. *)
Theorem merge_in_two_steps (paths1 paths2 : list string)
    (docs1 docs2 : list (list Page)) tmp out w :
  Forall2 (holds_document w) paths1 docs1 →
  Forall2 (holds_document w) paths2 docs2 →
  writable w tmp → writable w out → tmp ∉ paths2 →
  ∃ w',
    (let! _ := MergeStrategy_execute (PyList paths1) tmp in
     MergeStrategy_execute (PyList (tmp :: paths2)) out) w
    = (Returned tt, w')
    ∧ files w' !! out
      = file_after (MergeStrategy_execute (PyList (paths1 ++ paths2)) out)
          w out.
Proof.
  intros H1 H2 Htmp Hout Hnot.
  eexists. unfold bind at 1. rewrite (merge_ok _ docs1) by done.
  rewrite (merge_ok _ (concat docs1 :: docs2)); [| |done].
  - split; [done|]. unfold file_after.
    rewrite (merge_ok _ (docs1 ++ docs2)) by (by apply Forall2_app || done).
    cbn [snd]. rewrite !set_file_lookup. simpl. by rewrite concat_app.
  - constructor; [apply set_file_lookup|]. by apply documents_set_file.
Qed.

(** X16. Splitting a split: with non-negative bounds, taking pages [c, d)
    into an intermediate file and then pages [a, b) of that file gives the
    pages [c + a, min(c + b, d)) of the original. *)
Theorem split_of_split path tmp out pages (a b c d : Z) w :
  holds_document w path pages → writable w tmp → writable w out →
  (0 ≤ a)%Z → (0 ≤ b)%Z → (0 ≤ c)%Z → (0 ≤ d)%Z →
  ∃ w',
    (let! _ := SplitStrategy_execute (PyStr path) tmp c (Some d) in
     SplitStrategy_execute (PyStr tmp) out a (Some b)) w
    = (Returned tt, w')
    ∧ files w' !! out
      = file_after
          (SplitStrategy_execute (PyStr path) out (c + a)
             (Some (Z.min (c + b) d))) w out.
Proof.
  intros Hdoc Htmp Hout Ha Hb Hc Hd.
  eexists. unfold bind at 1. rewrite (split_ok _ _ pages) by done.
  rewrite (split_ok _ _ (getitem_slice pages (Some c) (Some d)));
    [|apply set_file_lookup|done].
  split; [done|]. unfold file_after.
  rewrite (split_ok _ _ pages) by done. cbn [snd].
  rewrite !set_file_lookup. by rewrite getitem_slice_twice.
Qed.

(** ** A path where the list of paths is expected *)

(** X17. [execute_operation] is annotated to take one path string, but an
    editor holding a MergeStrategy iterates over that argument: the paths it
    opens are the characters of the string.  So when the first character (an
    ASCII one), taken as a path, holds no document, the call raises what
    reading that one-character path raises and writes nothing, even if the
    string itself names a readable document. *)
Theorem editor_merge_string_argument (self : PDFEditor Page) (c : ascii)
    (rest : string) out w :
  operation self = MergeStrategy →
  nat_of_ascii c < 128 →
  unreadable w (String c EmptyString) →
  ∃ e, PdfReader (Page:=Page) (PyStr (String c EmptyString)) w = (Raised e, w)
       ∧ execute_operation self (PyStr (String c rest)) out w = (Raised e, w).
Proof.
  intros Hop _ Hbad. unfold execute_operation. unfold operation in Hop.
  rewrite Hop. simpl. unfold MergeStrategy_execute, bind at 1. simpl.
  unfold bind at 1, PdfReader.
  destruct (files w !! String c "") as [[d|]|] eqn:Hp;
    [by destruct (Hbad d)|by eexists..].
Qed.

End Properties.

(** * The properties on the concrete file system *)

(** The two scenarios of the specification, run on the model. *)
Example merge_a_b :
  file_after (MergeStrategy_execute (PyList ["a.pdf"; "b.pdf"]) "out.pdf")
    disk "out.pdf"
  = Some (PdfDoc [10; 11; 12; 20; 21]).
Proof. reflexivity. Qed.

Example split_doc_2_5 :
  file_after (SplitStrategy_execute (PyStr "doc.pdf") "out.pdf" 2 (Some 5%Z))
    disk "out.pdf"
  = Some (PdfDoc [2; 3; 4]).
Proof. reflexivity. Qed.

Example split_doc_last_three :
  file_after (SplitStrategy_execute (PyStr "doc.pdf") "out.pdf" (-3) None)
    disk "out.pdf"
  = Some (PdfDoc [7; 8; 9]).
Proof. reflexivity. Qed.

Example split_doc_reversed_bounds :
  file_after (SplitStrategy_execute (PyStr "doc.pdf") "out.pdf" 5 (Some 2%Z))
    disk "out.pdf"
  = Some (PdfDoc []).
Proof. reflexivity. Qed.

(** An output path that cannot be opened: the exception of [open] reaches
    the caller and no file has changed. *)
Example merge_unwritable_output :
  MergeStrategy_execute (PyList ["a.pdf"]) "/proc/out.pdf" disk
  = (Raised PermissionError, disk).
Proof. reflexivity. Qed.

(** A failing input leaves no file at the output path. *)
Example merge_not_a_pdf :
  MergeStrategy_execute (PyList ["a.pdf"; "notes.txt"]) "out.pdf" disk
  = (Raised PdfReadError, disk)
  ∧ files disk !! "out.pdf" = None.
Proof. split; reflexivity. Qed.

(** The editor switches from merging to splitting. *)
Example editor_switch :
  let editor := PDFEditor_init MergeStrategy in
  let editor' := set_operation editor SplitStrategy in
  file_after (execute_operation editor (PyList ["a.pdf"; "b.pdf"]) "out.pdf")
    disk "out.pdf"
  = Some (PdfDoc [10; 11; 12; 20; 21])
  ∧ file_after (execute_operation editor' (PyStr "a.pdf") "out.pdf")
      disk "out.pdf"
    = Some (PdfDoc [10; 11; 12]).
Proof. split; reflexivity. Qed.


Lemma merge_concatenates_witness :
  MergeStrategy_execute (PyList ["a.pdf"; "b.pdf"]) "out.pdf" disk
  = (Returned tt, set_file "out.pdf" (PdfDoc [10; 11; 12; 20; 21]) disk)
  ∧ file_after (MergeStrategy_execute (PyList ["a.pdf"; "b.pdf"]) "out.pdf")
      disk "out.pdf"
    = Some (PdfDoc [10; 11; 12; 20; 21])
  ∧ length [10; 11; 12; 20; 21] = 3 + (2 + 0).
Proof.
  apply (merge_concatenates ["a.pdf"; "b.pdf"] [a_pdf; b_pdf] "out.pdf" disk).
  - discriminate.
  - on_disk.
  - on_disk.
Defined.

Lemma merge_unreadable_aborts_witness :
  ∃ e, MergeStrategy_execute (PyList ["a.pdf"; "notes.txt"; "b.pdf"])
         "out.pdf" disk = (Raised e, disk).
Proof.
  apply (merge_unreadable_aborts ["a.pdf"; "notes.txt"; "b.pdf"] "out.pdf" disk).
  exists "notes.txt". split.
  - apply elem_of_cons. right. apply elem_of_cons. by left.
  - intros pages. discriminate.
Defined.

Lemma merge_empty_list_witness :
  MergeStrategy_execute (PyList []) "out.pdf" disk
  = (Returned tt, set_file "out.pdf" (PdfDoc []) disk)
  ∧ file_after (MergeStrategy_execute (PyList []) "out.pdf") disk "out.pdf"
    = Some (PdfDoc []).
Proof. apply (merge_empty_list "out.pdf" disk). on_disk. Defined.

Lemma split_range_witness :
  ∃ output,
    SplitStrategy_execute (PyStr "doc.pdf") "out.pdf" 2 (Some 5%Z) disk
    = (Returned tt, set_file "out.pdf" (PdfDoc output) disk)
    ∧ Z.of_nat (length output) = (5 - 2)%Z
    ∧ ∀ i : nat, (Z.of_nat i < 5 - 2)%Z →
        output !! i = doc_pdf !! (Z.to_nat 2 + i)
        ∧ is_Some (output !! i).
Proof.
  apply (split_range "doc.pdf" "out.pdf" doc_pdf 2 5 disk).
  - reflexivity.
  - on_disk.
  - lia.
  - simpl. lia.
Defined.

Lemma split_clamps_witness :
  ∃ output,
    SplitStrategy_execute (PyStr "doc.pdf") "out.pdf" 7 (Some 12%Z) disk
    = (Returned tt, set_file "out.pdf" (PdfDoc output) disk)
    ∧ ((12 ≤ 7)%Z ∨ (Z.of_nat (length doc_pdf) ≤ 7)%Z → output = [])
    ∧ ((Z.of_nat (length doc_pdf) < 12)%Z →
       output = drop (Z.to_nat 7) doc_pdf).
Proof.
  apply (split_clamps "doc.pdf" "out.pdf" doc_pdf 7 12 disk).
  - reflexivity.
  - on_disk.
  - lia.
  - lia.
Defined.

Lemma split_defaults_copy_witness :
  SplitStrategy_execute (PyStr "doc.pdf") "out.pdf" 0 None disk
  = (Returned tt, set_file "out.pdf" (PdfDoc doc_pdf) disk).
Proof.
  apply (split_defaults_copy "doc.pdf" "out.pdf" doc_pdf disk).
  - reflexivity.
  - on_disk.
Defined.

Lemma split_negative_start_witness :
  ∃ output,
    SplitStrategy_execute (PyStr "doc.pdf") "out.pdf" (-1) None disk
    = (Returned tt, set_file "out.pdf" (PdfDoc output) disk)
    ∧ output = drop (Z.to_nat (Z.of_nat (length doc_pdf) + -1)) doc_pdf
    ∧ ((- Z.of_nat (length doc_pdf) < -1)%Z →
       Z.of_nat (length output) = (- -1)%Z ∧ output ≠ doc_pdf)
    ∧ ((-1)%Z = (-1)%Z → ∃ page, last doc_pdf = Some page ∧ output = [page]).
Proof.
  apply (split_negative_start "doc.pdf" "out.pdf" doc_pdf (-1) disk).
  - reflexivity.
  - on_disk.
  - simpl. lia.
  - lia.
Defined.

Lemma editor_split_full_copy_witness :
  (∀ (pdf_path : PyVal) (output_path : string) (w' : World nat),
     execute_operation (PDFEditor_init SplitStrategy) pdf_path output_path w'
     = SplitStrategy_execute pdf_path output_path 0 None w')
  ∧ execute_operation (PDFEditor_init SplitStrategy) (PyStr "doc.pdf")
      "out.pdf" disk
    = (Returned tt, set_file "out.pdf" (PdfDoc doc_pdf) disk).
Proof.
  apply (editor_split_full_copy (PDFEditor_init SplitStrategy)
           "doc.pdf" "out.pdf" doc_pdf disk).
  - reflexivity.
  - reflexivity.
  - on_disk.
Defined.

(** * The further properties on the concrete file system *)

Lemma split_unreadable_aborts_witness :
  ∃ e, SplitStrategy_execute (PyStr "notes.txt") "out.pdf" 0 None disk
       = (Raised e, disk).
Proof.
  apply (split_unreadable_aborts "notes.txt" "out.pdf" 0 None disk).
  intros pages. discriminate.
Defined.

Lemma merge_unwritable_raises_witness :
  ∃ e, open_wb "/proc/out.pdf" disk = (Raised e, disk)
       ∧ MergeStrategy_execute (PyList ["a.pdf"; "b.pdf"]) "/proc/out.pdf" disk
         = (Raised e, disk).
Proof.
  apply (merge_unwritable_raises ["a.pdf"; "b.pdf"] [a_pdf; b_pdf]
           "/proc/out.pdf" disk); on_disk.
Defined.

Lemma split_unwritable_raises_witness :
  ∃ e, open_wb "/proc/out.pdf" disk = (Raised e, disk)
       ∧ SplitStrategy_execute (PyStr "doc.pdf") "/proc/out.pdf" 2 (Some 5%Z)
           disk
         = (Raised e, disk).
Proof.
  apply (split_unwritable_raises "doc.pdf" "/proc/out.pdf" doc_pdf 2
           (Some 5%Z) disk); on_disk.
Defined.

Lemma merge_first_error_witness :
  ∃ e, PdfReader (Page:=nat) (PyStr "missing.pdf") disk = (Raised e, disk)
       ∧ MergeStrategy_execute
           (PyList (["a.pdf"] ++ "missing.pdf" :: ["notes.txt"]))
           "/proc/out.pdf" disk
         = (Raised e, disk).
Proof.
  apply (merge_first_error ["a.pdf"] ["notes.txt"] "missing.pdf" [a_pdf]
           "/proc/out.pdf" disk).
  - on_disk.
  - intros pages. discriminate.
Defined.

Lemma merge_touches_only_output_witness :
  file_after (MergeStrategy_execute (PyList ["a.pdf"; "b.pdf"]) "out.pdf")
    disk "doc.pdf"
  = files disk !! "doc.pdf"
  ∧ unwritable
      (snd (MergeStrategy_execute (PyList ["a.pdf"; "b.pdf"]) "out.pdf" disk))
    = unwritable disk.
Proof.
  apply (merge_touches_only_output (PyList ["a.pdf"; "b.pdf"]) "out.pdf"
           "doc.pdf" disk).
  discriminate.
Defined.

Lemma split_touches_only_output_witness :
  file_after (SplitStrategy_execute (PyStr "doc.pdf") "out.pdf" 2 (Some 5%Z))
    disk "a.pdf"
  = files disk !! "a.pdf"
  ∧ unwritable
      (snd (SplitStrategy_execute (PyStr "doc.pdf") "out.pdf" 2 (Some 5%Z)
              disk))
    = unwritable disk.
Proof.
  apply (split_touches_only_output (PyStr "doc.pdf") "out.pdf" "a.pdf" 2
           (Some 5%Z) disk).
  discriminate.
Defined.

Lemma merge_overwrites_output_witness :
  MergeStrategy_execute (PyList ["a.pdf"; "b.pdf"]) "out.pdf"
    (set_file "out.pdf" (PdfDoc doc_pdf) disk)
  = (Returned tt, set_file "out.pdf" (PdfDoc (concat [a_pdf; b_pdf])) disk).
Proof.
  apply (merge_overwrites_output ["a.pdf"; "b.pdf"] [a_pdf; b_pdf] "out.pdf"
           (PdfDoc doc_pdf) disk).
  - on_disk.
  - on_disk.
  - not_listed.
Defined.

Lemma split_overwrites_output_witness :
  SplitStrategy_execute (PyStr "doc.pdf") "out.pdf" 2 (Some 5%Z)
    (set_file "out.pdf" (PdfDoc a_pdf) disk)
  = (Returned tt,
     set_file "out.pdf"
       (PdfDoc (getitem_slice doc_pdf (Some 2%Z) (Some 5%Z))) disk).
Proof.
  apply (split_overwrites_output "doc.pdf" "out.pdf" doc_pdf 2 (Some 5%Z)
           (PdfDoc a_pdf) disk); on_disk.
Defined.

Lemma split_is_segment_witness :
  ∃ before output after,
    SplitStrategy_execute (PyStr "doc.pdf") "out.pdf" (-3) (Some 20%Z) disk
    = (Returned tt, set_file "out.pdf" (PdfDoc output) disk)
    ∧ doc_pdf = before ++ output ++ after.
Proof.
  apply (split_is_segment "doc.pdf" "out.pdf" doc_pdf (-3) (Some 20%Z) disk);
    on_disk.
Defined.

Lemma split_negative_end_witness :
  SplitStrategy_execute (PyStr "doc.pdf") "out.pdf" 0 (Some (-1)%Z) disk
  = (Returned tt,
     set_file "out.pdf"
       (PdfDoc (take (Z.to_nat (Z.of_nat (length doc_pdf) + -1)) doc_pdf))
       disk).
Proof.
  apply (split_negative_end "doc.pdf" "out.pdf" doc_pdf (-1) disk); on_disk.
Defined.

Lemma split_merge_round_trip_witness :
  ∃ w',
    (let! _ := SplitStrategy_execute (PyStr "doc.pdf") "head.pdf" 0
                 (Some 4%Z) in
     let! _ := SplitStrategy_execute (PyStr "doc.pdf") "tail.pdf" 4 None in
     MergeStrategy_execute (PyList ["head.pdf"; "tail.pdf"]) "out.pdf") disk
    = (Returned tt, w')
    ∧ holds_document w' "out.pdf" doc_pdf.
Proof.
  apply (split_merge_round_trip "doc.pdf" "head.pdf" "tail.pdf" "out.pdf"
           doc_pdf 4 disk); on_disk.
Defined.

Lemma merge_in_two_steps_witness :
  ∃ w',
    (let! _ := MergeStrategy_execute (PyList ["a.pdf"]) "tmp.pdf" in
     MergeStrategy_execute (PyList ("tmp.pdf" :: ["b.pdf"; "doc.pdf"]))
       "out.pdf") disk
    = (Returned tt, w')
    ∧ files w' !! "out.pdf"
      = file_after
          (MergeStrategy_execute (PyList (["a.pdf"] ++ ["b.pdf"; "doc.pdf"]))
             "out.pdf") disk "out.pdf".
Proof.
  apply (merge_in_two_steps ["a.pdf"] ["b.pdf"; "doc.pdf"] [a_pdf]
           [b_pdf; doc_pdf] "tmp.pdf" "out.pdf" disk).
  - on_disk.
  - on_disk.
  - on_disk.
  - on_disk.
  - not_listed.
Defined.

Lemma split_of_split_witness :
  ∃ w',
    (let! _ := SplitStrategy_execute (PyStr "doc.pdf") "tmp.pdf" 2
                 (Some 8%Z) in
     SplitStrategy_execute (PyStr "tmp.pdf") "out.pdf" 1 (Some 3%Z)) disk
    = (Returned tt, w')
    ∧ files w' !! "out.pdf"
      = file_after
          (SplitStrategy_execute (PyStr "doc.pdf") "out.pdf" (2 + 1)
             (Some (Z.min (2 + 3) 8))) disk "out.pdf".
Proof.
  apply (split_of_split "doc.pdf" "tmp.pdf" "out.pdf" doc_pdf 1 3 2 8 disk);
    on_disk.
Defined.

Lemma editor_merge_string_argument_witness :
  ∃ e, PdfReader (Page:=nat) (PyStr "a") disk = (Raised e, disk)
       ∧ execute_operation (PDFEditor_init MergeStrategy) (PyStr "a.pdf")
           "out.pdf" disk
         = (Raised e, disk).
Proof.
  apply (editor_merge_string_argument (PDFEditor_init MergeStrategy)
           "a"%char ".pdf" "out.pdf" disk).
  - reflexivity.
  - vm_compute. lia.
  - intros pages. discriminate.
Defined.
